(** * LIMIT -- Proof of Financial Restraint (demo backend)

    A shallow embedding of [backend/app]: the fixture data of
    [mock_data.py], the evaluator of [logic.py], the proof emitter of
    [proof.py] and the request handlers of [main.py], followed by the
    properties the specification states about them. *)

From Stdlib Require Import ZArith NArith List Ascii String Bool Lia.
From Stdlib Require Import Hexadecimal HexadecimalString.
From Stdlib Require HexadecimalFacts HexadecimalPos HexadecimalN.
From stdpp Require Import base decidable countable strings gmap.
Import ListNotations.

Local Open Scope string_scope.
Local Open Scope Z_scope.

(** ** Data model *)

(** A transaction is a Python dict with the keys ["amount"],
    ["category"] and ["date"]; the evaluator reads the first two by
    subscript, so every transaction it is given has them.  The amounts
    of the fixture are Python [int]s, which are unbounded: [Z]. *)
Record Transaction := mkTx {
  amount : Z;
  category : string;
  date : string
}.

(** The ["debug"] sub-dict of a discipline result. *)
Record Debug := mkDebug {
  total_spend : Z;
  impulse_spend : Z;
  total_savings : Z
}.

(** The dict returned by [evaluate_discipline]. *)
Record DisciplineResult := mkResult {
  budget_ok : bool;
  impulse_ok : bool;
  savings_ok : bool;
  discipline_passed : bool;
  debug : Debug
}.

(** The dict returned by [generate_proof]. *)
Record ProofRecord := mkProof {
  proof_id : string;
  discipline_valid : bool;
  timestamp : string
}.

(** What one call of [generate_proof] reads from outside the program:
    the integer value ([UUID.int]) of the identifier [uuid.uuid4()]
    draws from the random source, and the text
    [datetime.utcnow().isoformat()] makes of the clock reading. *)
Record World := mkWorld {
  uuid4_int : N;
  utcnow_isoformat : string
}.

(** ** mock_data.py *)

Module MockData.

Definition USER_BUDGET : Z := 20000.
Definition SAVINGS_TARGET : Z := 5000.

Definition transactions : list Transaction :=
  [ mkTx 3000 "food" "2026-01-05";
    mkTx 1500 "shopping" "2026-01-07";
    mkTx 2000 "travel" "2026-01-10";
    mkTx 5000 "savings" "2026-01-12";
    mkTx 1200 "food" "2026-01-15" ].

Definition PREVIOUS_MONTH_IMPULSE_SPEND : Z := 4000.

(** A Python set literal of strings. *)
Definition IMPULSE_CATEGORIES : gset string :=
  {[ "food"; "shopping"; "travel" ]}.

End MockData.

(** ** logic.py *)

Module Logic.
Import MockData.

(** The three local accumulators of [evaluate_discipline], in the
    order the function initialises them. *)
Record Acc := mkAcc {
  acc_total_spend : Z;
  acc_impulse_spend : Z;
  acc_total_savings : Z
}.

Definition acc0 : Acc := mkAcc 0 0 0.

(** One iteration of the [for tx in transactions] body: the
    [if]/[else] on ["savings"], then the independent [if] on the
    impulse set. *)
Definition loop_body (a : Acc) (tx : Transaction) : Acc :=
  let a1 :=
    if String.eqb (category tx) "savings"
    then mkAcc (acc_total_spend a) (acc_impulse_spend a)
               (acc_total_savings a + amount tx)
    else mkAcc (acc_total_spend a + amount tx) (acc_impulse_spend a)
               (acc_total_savings a) in
  if bool_decide (category tx ∈ IMPULSE_CATEGORIES)
  then mkAcc (acc_total_spend a1) (acc_impulse_spend a1 + amount tx)
             (acc_total_savings a1)
  else a1.

Definition run_loop (txs : list Transaction) : Acc :=
  fold_left loop_body txs acc0.

Definition evaluate_discipline (txs : list Transaction) : DisciplineResult :=
  let a := run_loop txs in
  let budget_ok := acc_total_spend a <=? USER_BUDGET in
  let impulse_ok := acc_impulse_spend a <? PREVIOUS_MONTH_IMPULSE_SPEND in
  let savings_ok := acc_total_savings a >=? SAVINGS_TARGET in
  let discipline_passed := budget_ok && impulse_ok && savings_ok in
  {| budget_ok := budget_ok;
     impulse_ok := impulse_ok;
     savings_ok := savings_ok;
     discipline_passed := discipline_passed;
     debug := {| total_spend := acc_total_spend a;
                 impulse_spend := acc_impulse_spend a;
                 total_savings := acc_total_savings a |} |}.

End Logic.

(** ** proof.py *)

Module Proof.

(** ['%x' % n]: the lowercase hexadecimal digits of [n], most
    significant first, ["0"] for zero. *)
Definition format_x (n : N) : string :=
  HexadecimalString.NilZero.string_of_uint (N.to_hex_uint n).

(** The [0w] part of a ['%0wx'] conversion: zeros on the left up to
    width [w]; a longer text is left as it is. *)
Fixpoint zeros (k : nat) : string :=
  match k with
  | O => EmptyString
  | S k' => String "0" (zeros k')
  end.

Definition zero_pad (w : nat) (s : string) : string :=
  zeros (w - String.length s) +:+ s.

(** [UUID.hex] is ['%032x' % self.int]. *)
Definition uuid_hex (u : N) : string := zero_pad 32 (format_x u).

(** [str.upper] on the ASCII range: the letters [a]..[z] move to
    [A]..[Z], every other character stays. *)
Definition upper_char (c : ascii) : ascii :=
  let n := N_of_ascii c in
  if ((97 <=? n) && (n <=? 122))%N then ascii_of_N (n - 32) else c.

Fixpoint upper (s : string) : string :=
  match s with
  | EmptyString => EmptyString
  | String c s' => String (upper_char c) (upper s')
  end.

(** [s[:k]]: the first [k] characters, or all of [s] when it is
    shorter. *)
Definition slice_to (k : nat) (s : string) : string := substring 0 k s.

Definition generate_proof (w : World) (discipline_result : DisciplineResult)
  : ProofRecord :=
  {| proof_id := "0x" +:+ upper (slice_to 8 (uuid_hex (uuid4_int w)));
     discipline_valid := discipline_passed discipline_result;
     timestamp := utcnow_isoformat w |}.

End Proof.

(** ** main.py *)

Module Main.
Import MockData Logic Proof.

(** [GET /transactions] *)
Definition get_transactions : list Transaction := transactions.

(** [POST /evaluate-discipline] *)
Definition evaluate : DisciplineResult := evaluate_discipline transactions.

(** [POST /generate-proof] *)
Definition generate (w : World) : ProofRecord :=
  let discipline_result := evaluate_discipline transactions in
  let proof := generate_proof w discipline_result in
  proof.

End Main.

Import MockData Logic Proof Main.

(** ** The sums as the specification words them *)

Module Spec.
Import MockData.

(** The sum of the amounts of a sequence of transactions. *)
Definition sum_amounts (txs : list Transaction) : Z :=
  foldr (λ tx s, amount tx + s) 0 txs.

(** "every transaction whose category equals the literal savings" *)
Definition savings_txs (txs : list Transaction) : list Transaction :=
  filter (λ tx, category tx = "savings") txs.

(** "every transaction whose category is not savings" *)
Definition spend_txs (txs : list Transaction) : list Transaction :=
  filter (λ tx, category tx ≠ "savings") txs.

(** "every transaction whose category is a member of the impulse
    category set" *)
Definition impulse_txs (txs : list Transaction) : list Transaction :=
  filter (λ tx, category tx ∈ IMPULSE_CATEGORIES) txs.

(** The characters a pattern may use. *)
Fixpoint all_chars (P : ascii → Prop) (s : string) : Prop :=
  match s with
  | EmptyString => True
  | String c s' => P c ∧ all_chars P s'
  end.

Definition lower_hex_chars : list ascii :=
  list_ascii_of_string "0123456789abcdef".

Definition upper_hex_chars : list ascii :=
  list_ascii_of_string "0123456789ABCDEF".

(** "[0x] followed by exactly 8 uppercase hexadecimal characters" *)
Definition is_proof_id (s : string) : Prop :=
  ∃ body : string,
    s = "0x" +:+ body
    ∧ String.length body = 8%nat
    ∧ all_chars (λ c, In c upper_hex_chars) body.

End Spec.

Import Spec.

(** A month that sits on all three boundaries at once. *)
Definition boundary_month : list Transaction :=
  [ mkTx 4000 "food" "2026-02-01";
    mkTx 16000 "rent" "2026-02-02";
    mkTx 5000 "savings" "2026-02-03" ].

(** ** logic.py on the dicts themselves *)

(** The values the dicts of the fixture hold: Python [int]s and [str]s. *)
Inductive value :=
  | VInt (n : Z)
  | VStr (s : string).

(** The exceptions the evaluator can raise on such dicts. *)
Inductive exn :=
  | KeyError (key : string)
  | TypeError.

(** A computation that raises or returns. *)
Inductive outcome (A : Type) :=
  | Raised (e : exn)
  | Returned (a : A).
Arguments Raised {A} e.
Arguments Returned {A} a.

#[global] Instance outcome_bind : MBind outcome := λ A B f m,
  match m with
  | Raised e => Raised e
  | Returned a => f a
  end.

Module Raw.
Import MockData Logic.

(** [d[k]] *)
Definition subscript (d : gmap string value) (k : string) : outcome value :=
  match d !! k with
  | Some v => Returned v
  | None => Raised (KeyError k)
  end.

(** [acc += v] where [acc] holds an [int]: an [int] is added, a [str]
    is an unsupported operand. *)
Definition iadd (acc : Z) (v : value) : outcome Z :=
  match v with
  | VInt n => Returned (acc + n)
  | VStr _ => Raised TypeError
  end.

(** [v == "savings"]: an [int] is never equal to a [str]. *)
Definition eq_savings (v : value) : bool :=
  match v with
  | VStr s => String.eqb s "savings"
  | VInt _ => false
  end.

(** [v in IMPULSE_CATEGORIES]: the set holds strings only. *)
Definition in_impulse (v : value) : bool :=
  match v with
  | VStr s => bool_decide (s ∈ IMPULSE_CATEGORIES)
  | VInt _ => false
  end.

(** The body of the [for] loop, subscript by subscript. *)
Definition loop_body_raw (a : Acc) (tx : gmap string value) : outcome Acc :=
  c ← subscript tx "category";
  a1 ← (if eq_savings c
        then v ← subscript tx "amount";
             s ← iadd (acc_total_savings a) v;
             Returned (mkAcc (acc_total_spend a) (acc_impulse_spend a) s)
        else v ← subscript tx "amount";
             s ← iadd (acc_total_spend a) v;
             Returned (mkAcc s (acc_impulse_spend a) (acc_total_savings a)));
  c' ← subscript tx "category";
  if in_impulse c'
  then v ← subscript tx "amount";
       s ← iadd (acc_impulse_spend a1) v;
       Returned (mkAcc (acc_total_spend a1) s (acc_total_savings a1))
  else Returned a1.

(** The loop: an exception raised by one iteration ends it. *)
Fixpoint run_loop_raw (a : Acc) (txs : list (gmap string value))
  : outcome Acc :=
  match txs with
  | [] => Returned a
  | tx :: rest => a' ← loop_body_raw a tx; run_loop_raw a' rest
  end.

Definition evaluate_discipline_raw (txs : list (gmap string value))
  : outcome DisciplineResult :=
  a ← run_loop_raw acc0 txs;
  let budget_ok := acc_total_spend a <=? USER_BUDGET in
  let impulse_ok := acc_impulse_spend a <? PREVIOUS_MONTH_IMPULSE_SPEND in
  let savings_ok := acc_total_savings a >=? SAVINGS_TARGET in
  let discipline_passed := budget_ok && impulse_ok && savings_ok in
  Returned
    {| budget_ok := budget_ok;
       impulse_ok := impulse_ok;
       savings_ok := savings_ok;
       discipline_passed := discipline_passed;
       debug := {| total_spend := acc_total_spend a;
                   impulse_spend := acc_impulse_spend a;
                   total_savings := acc_total_savings a |} |}.

(** A transaction record as the dict the fixture writes. *)
Definition to_dict (tx : Transaction) : gmap string value :=
  {[ "amount" := VInt (amount tx);
     "category" := VStr (category tx);
     "date" := VStr (date tx) ]}.

(** What is wrong with a dict, if anything, in the order the loop body
    meets it: no ["category"], no ["amount"], an amount that is not a
    number. *)
Definition tx_error (d : gmap string value) : option exn :=
  match d !! "category", d !! "amount" with
  | None, _ => Some (KeyError "category")
  | Some _, None => Some (KeyError "amount")
  | Some _, Some (VStr _) => Some TypeError
  | Some _, Some (VInt _) => None
  end.

End Raw.

Import Raw.

(** ** Fixed-width hexadecimal text *)

(** The [k] lowest hexadecimal digits of [n], most significant first,
    written with the sixteen characters of [alphabet]. *)
Fixpoint hex_fixed (alphabet : list ascii) (k : nat) (n : N) : string :=
  match k with
  | O => EmptyString
  | S k' =>
      hex_fixed alphabet k' (n / 16)
      +:+ String (nth (N.to_nat (n mod 16)) alphabet "0"%char) EmptyString
  end.

(** The digit of value [m] put in front of [d]. *)
Definition digit_cons (m : N) (d : uint) : uint :=
  match N.to_nat m with
  | 0%nat => D0 d | 1%nat => D1 d | 2%nat => D2 d | 3%nat => D3 d
  | 4%nat => D4 d | 5%nat => D5 d | 6%nat => D6 d | 7%nat => D7 d
  | 8%nat => D8 d | 9%nat => D9 d | 10%nat => Da d | 11%nat => Db d
  | 12%nat => Dc d | 13%nat => Dd d | 14%nat => De d | 15%nat => Df d
  | _ => D0 d
  end.

(** The [k] lowest hexadecimal digits of [n], least significant first. *)
Fixpoint little_digits (k : nat) (n : N) : uint :=
  match k with
  | O => Nil
  | S k' => digit_cons (n mod 16) (little_digits k' (n / 16))
  end.

(** ** The code on concrete inputs *)

Example evaluate_fixture_debug :
  debug evaluate = mkDebug 7700 7700 5000.
Proof. vm_compute. reflexivity. Qed.

Example evaluate_unknown_category :
  evaluate_discipline [mkTx 250 "rent" "2026-01-02"]
  = mkResult true true false false (mkDebug 250 0 0).
Proof. vm_compute. reflexivity. Qed.

Example uuid_hex_small : uuid_hex 255 = "000000000000000000000000000000ff".
Proof. vm_compute. reflexivity. Qed.

Example uuid_hex_full :
  uuid_hex (2 ^ 128 - 1) = "ffffffffffffffffffffffffffffffff".
Proof. vm_compute. reflexivity. Qed.

Example upper_mixed : upper "0x9af{`z" = "0X9AF{`Z".
Proof. vm_compute. reflexivity. Qed.

Example generate_concrete :
  generate (mkWorld 0x0a1b2c3d4e5f40718293a4b5c6d7e8f9
                    "2026-01-20T10:11:12.131415")
  = mkProof "0x0A1B2C3D" false "2026-01-20T10:11:12.131415".
Proof. vm_compute. reflexivity. Qed.

Example raw_fixture :
  evaluate_discipline_raw (map to_dict transactions)
  = Returned (mkResult true false true false (mkDebug 7700 7700 5000)).
Proof. vm_compute. reflexivity. Qed.

Example raw_missing_both :
  evaluate_discipline_raw
    [to_dict (mkTx 10 "food" "2026-01-01"); {[ "date" := VStr "2026-01-02" ]};
     {[ "category" := VStr "food" ]}]
  = Raised (KeyError "category").
Proof. vm_compute. reflexivity. Qed.

Example raw_text_amount :
  evaluate_discipline_raw
    [{[ "category" := VStr "rent"; "amount" := VStr "12" ]}]
  = Raised TypeError.
Proof. vm_compute. reflexivity. Qed.

Example raw_number_category :
  evaluate_discipline_raw
    [{[ "category" := VInt 7; "amount" := VInt 12 ]}]
  = Returned (mkResult true true false false (mkDebug 12 0 0)).
Proof. vm_compute. reflexivity. Qed.

Example hex_fixed_lower :
  hex_fixed lower_hex_chars 8 0x0a1b2c3d = "0a1b2c3d".
Proof. vm_compute. reflexivity. Qed.

Example hex_fixed_truncates :
  hex_fixed upper_hex_chars 4 0xabcdef = "CDEF".
Proof. vm_compute. reflexivity. Qed.

(** ** The accumulation loop *)

Section Loop.

Lemma loop_body_savings a tx :
  acc_total_savings (loop_body a tx)
  = acc_total_savings a + sum_amounts (savings_txs [tx]).
Proof.
  unfold loop_body, savings_txs. rewrite filter_cons, filter_nil.
  destruct (String.eqb_spec (category tx) "savings") as [E|E];
    destruct (decide (category tx = "savings")) as [D|D]; try contradiction;
    destruct (bool_decide _); simpl; lia.
Qed.

Lemma loop_body_spend a tx :
  acc_total_spend (loop_body a tx)
  = acc_total_spend a + sum_amounts (spend_txs [tx]).
Proof.
  unfold loop_body, spend_txs. rewrite filter_cons, filter_nil.
  destruct (String.eqb_spec (category tx) "savings") as [E|E];
    destruct (decide (category tx ≠ "savings")) as [D|D]; try contradiction;
    destruct (bool_decide _); simpl; lia.
Qed.

Lemma loop_body_impulse a tx :
  acc_impulse_spend (loop_body a tx)
  = acc_impulse_spend a + sum_amounts (impulse_txs [tx]).
Proof.
  unfold loop_body, impulse_txs. rewrite filter_cons, filter_nil.
  destruct (String.eqb (category tx) "savings");
    case_bool_decide as M; destruct (decide _) as [D|D];
    try contradiction; simpl; lia.
Qed.

Lemma sum_amounts_app l1 l2 :
  sum_amounts (l1 ++ l2)%list = sum_amounts l1 + sum_amounts l2.
Proof. induction l1 as [|tx l1 IH]; simpl; [|rewrite IH]; lia. Qed.

(** The state after the loop, started from any accumulator. *)
Lemma fold_loop_body txs : ∀ a,
  fold_left loop_body txs a
  = mkAcc (acc_total_spend a + sum_amounts (spend_txs txs))
          (acc_impulse_spend a + sum_amounts (impulse_txs txs))
          (acc_total_savings a + sum_amounts (savings_txs txs)).
Proof.
  induction txs as [|tx txs IH]; intros a.
  - destruct a; simpl. f_equal; lia.
  - simpl fold_left. rewrite IH.
    rewrite loop_body_spend, loop_body_impulse, loop_body_savings.
    change (tx :: txs) with ([tx] ++ txs)%list.
    unfold spend_txs, impulse_txs, savings_txs.
    rewrite !filter_app, !sum_amounts_app. f_equal; lia.
Qed.

Lemma run_loop_sums txs :
  run_loop txs
  = mkAcc (sum_amounts (spend_txs txs)) (sum_amounts (impulse_txs txs))
          (sum_amounts (savings_txs txs)).
Proof. unfold run_loop. rewrite fold_loop_body. reflexivity. Qed.

(** Savings and spend split the sequence. *)
Lemma sum_amounts_split txs :
  sum_amounts (spend_txs txs) + sum_amounts (savings_txs txs)
  = sum_amounts txs.
Proof.
  unfold spend_txs, savings_txs.
  induction txs as [|tx txs IH]; [reflexivity|].
  rewrite !filter_cons.
  destruct (decide (category tx = "savings")) as [E|E];
    destruct (decide (category tx ≠ "savings")) as [D|D];
    try tauto; simpl; lia.
Qed.

Lemma savings_not_impulse : "savings" ∉ IMPULSE_CATEGORIES.
Proof.
  unfold IMPULSE_CATEGORIES.
  rewrite !not_elem_of_union, !not_elem_of_singleton.
  repeat split; discriminate.
Qed.

(** No impulse category is ["savings"], so with amounts that are not
    negative the impulse sum stays below the spend sum. *)
Lemma sum_impulse_le_spend txs :
  Forall (λ tx, 0 <= amount tx) txs →
  sum_amounts (impulse_txs txs) <= sum_amounts (spend_txs txs).
Proof.
  unfold impulse_txs, spend_txs.
  induction 1 as [|tx txs Htx _ IH]; [reflexivity|].
  rewrite !filter_cons.
  destruct (decide (category tx ∈ IMPULSE_CATEGORIES)) as [M|M];
    destruct (decide (category tx ≠ "savings")) as [D|D]; simpl; try lia.
  exfalso. apply dec_stable in D. rewrite D in M.
  exact (savings_not_impulse M).
Qed.

End Loop.

(** ** The evaluator *)

(** C1. For every sequence of transactions the three sums reported by
    [evaluate_discipline], which the loop accumulates in one left-to-right
    pass, are: [total_savings], the sum of the amounts of the transactions
    whose category is ["savings"]; [total_spend], the sum of the amounts
    of those whose category is not ["savings"]; [impulse_spend], the sum
    of the amounts of those whose category is in the impulse set, whatever
    side of the savings/spend split they fall on. *)
Theorem evaluate_discipline_sums (txs : list Transaction) :
  let d := debug (evaluate_discipline txs) in
  total_savings d = sum_amounts (savings_txs txs)
  ∧ total_spend d = sum_amounts (spend_txs txs)
  ∧ impulse_spend d = sum_amounts (impulse_txs txs).
Proof.
  unfold evaluate_discipline; simpl. rewrite run_loop_sums. simpl. auto.
Qed.

(** C2. The three booleans of [evaluate_discipline] are
    [total_spend <= USER_BUDGET], [impulse_spend <
    PREVIOUS_MONTH_IMPULSE_SPEND] and [total_savings >= SAVINGS_TARGET]
    on the sums of the same result; a spend equal to the ceiling passes,
    an impulse spend equal to the prior one fails, savings equal to the
    target pass. *)
Theorem evaluate_discipline_checks (txs : list Transaction) :
  let r := evaluate_discipline txs in
  let d := debug r in
  (budget_ok r = (total_spend d <=? USER_BUDGET)
   ∧ impulse_ok r = (impulse_spend d <? PREVIOUS_MONTH_IMPULSE_SPEND)
   ∧ savings_ok r = (total_savings d >=? SAVINGS_TARGET))
  ∧ (total_spend d = USER_BUDGET → budget_ok r = true)
  ∧ (impulse_spend d = PREVIOUS_MONTH_IMPULSE_SPEND → impulse_ok r = false)
  ∧ (total_savings d = SAVINGS_TARGET → savings_ok r = true).
Proof.
  unfold evaluate_discipline; simpl.
  repeat split; intros ->.
  - apply Z.leb_refl.
  - apply Z.ltb_irrefl.
  - rewrite Z.geb_leb. apply Z.leb_refl.
Qed.

Lemma evaluate_discipline_checks_witness :
  let r := evaluate_discipline boundary_month in
  total_spend (debug r) = USER_BUDGET
  ∧ impulse_spend (debug r) = PREVIOUS_MONTH_IMPULSE_SPEND
  ∧ total_savings (debug r) = SAVINGS_TARGET
  ∧ budget_ok r = true ∧ impulse_ok r = false ∧ savings_ok r = true.
Proof.
  cbv zeta.
  destruct (evaluate_discipline_checks boundary_month)
    as (_ & Hb & Hi & Hs).
  split; [vm_compute; reflexivity|].
  split; [vm_compute; reflexivity|].
  split; [vm_compute; reflexivity|].
  split; [apply Hb; vm_compute; reflexivity|].
  split; [apply Hi; vm_compute; reflexivity|].
  apply Hs; vm_compute; reflexivity.
Defined.

(** C3. In every result of [evaluate_discipline] the flag
    [discipline_passed] is the conjunction of the three checks of that
    same result; the result is a function of the transactions alone, so
    nothing of an earlier evaluation can show in it. *)
Theorem discipline_passed_is_conjunction (txs : list Transaction) :
  let r := evaluate_discipline txs in
  discipline_passed r = budget_ok r && impulse_ok r && savings_ok r.
Proof. reflexivity. Qed.

(** C4. On the fixture of [mock_data.py] (3000 food, 1500 shopping, 2000
    travel, 5000 savings, 1200 food; ceiling 20000, target 5000, prior
    impulse spend 4000, impulse set food/shopping/travel) the evaluator
    reports spend 7700, impulse spend 7700, savings 5000, budget passed,
    impulse failed, savings passed and discipline failed. *)
Theorem evaluate_discipline_fixture :
  map (λ tx, (amount tx, category tx)) transactions
  = [ (3000, "food"); (1500, "shopping"); (2000, "travel");
      (5000, "savings"); (1200, "food") ]
  ∧ USER_BUDGET = 20000 ∧ SAVINGS_TARGET = 5000
  ∧ PREVIOUS_MONTH_IMPULSE_SPEND = 4000
  ∧ IMPULSE_CATEGORIES = {[ "food"; "shopping"; "travel" ]}
  ∧ evaluate_discipline transactions
    = {| budget_ok := true; impulse_ok := false; savings_ok := true;
         discipline_passed := false;
         debug := {| total_spend := 7700; impulse_spend := 7700;
                     total_savings := 5000 |} |}.
Proof. repeat (split; [reflexivity|]). vm_compute. reflexivity. Qed.

(** C5. For every sequence of transactions, the spend and the savings
    reported by [evaluate_discipline] add up to the sum of all the
    amounts of the input. *)
Theorem spend_plus_savings_is_total (txs : list Transaction) :
  let d := debug (evaluate_discipline txs) in
  total_spend d + total_savings d = sum_amounts txs.
Proof.
  unfold evaluate_discipline; simpl. rewrite run_loop_sums. simpl.
  apply sum_amounts_split.
Qed.

(** C8. On the empty collection [evaluate_discipline] returns a result
    whose three sums are 0; against the positive target 5000 the savings
    check fails and so does the discipline flag, while the budget check
    (0 <= 20000) and the impulse check (0 < 4000) pass. *)
Theorem evaluate_discipline_empty :
  SAVINGS_TARGET = 5000
  ∧ evaluate_discipline []
    = {| budget_ok := true; impulse_ok := true; savings_ok := false;
         discipline_passed := false;
         debug := {| total_spend := 0; impulse_spend := 0;
                     total_savings := 0 |} |}.
Proof. split; reflexivity. Qed.

(** C9. When no amount is negative, the impulse spend reported by
    [evaluate_discipline] is at most its total spend: ["savings"] is not
    in the impulse set, so whatever is counted as impulse is counted as
    spend too. *)
Theorem impulse_spend_le_total_spend (txs : list Transaction) :
  Forall (λ tx, 0 <= amount tx) txs →
  let d := debug (evaluate_discipline txs) in
  impulse_spend d <= total_spend d.
Proof.
  intros Hpos. unfold evaluate_discipline; simpl.
  rewrite run_loop_sums. simpl. apply sum_impulse_le_spend, Hpos.
Qed.

Lemma impulse_spend_le_total_spend_witness :
  Forall (λ tx, 0 <= amount tx) transactions
  ∧ impulse_spend (debug (evaluate_discipline transactions))
    <= total_spend (debug (evaluate_discipline transactions)).
Proof.
  assert (Hpos : Forall (λ tx, 0 <= amount tx) transactions).
  { unfold transactions. repeat constructor; simpl; lia. }
  split; [exact Hpos|].
  exact (impulse_spend_le_total_spend transactions Hpos).
Defined.

(** ** The proof emitter *)

Section Emitter.

Lemma all_chars_app P s1 s2 :
  all_chars P s1 → all_chars P s2 → all_chars P (s1 +:+ s2).
Proof. induction s1 as [|c s1 IH]; simpl; [auto|]. intros [? ?] ?. auto. Qed.

Lemma all_chars_zeros k : all_chars (λ c, In c lower_hex_chars) (zeros k).
Proof. induction k; simpl; auto. Qed.

Lemma all_chars_string_of_uint d :
  all_chars (λ c, In c lower_hex_chars) (NilEmpty.string_of_uint d).
Proof.
  induction d; simpl; try (split; [|assumption]); simpl; auto 20.
Qed.

Lemma all_chars_format_x n :
  all_chars (λ c, In c lower_hex_chars) (format_x n).
Proof.
  unfold format_x, NilZero.string_of_uint.
  destruct (N.to_hex_uint n) eqn:E; try rewrite <- E;
    try apply all_chars_string_of_uint.
  simpl; auto.
Qed.

Lemma length_zeros k : String.length (zeros k) = k.
Proof. induction k as [|k IH]; simpl; [reflexivity | now rewrite IH]. Qed.

Lemma string_length_app s1 s2 :
  String.length (s1 +:+ s2) = (String.length s1 + String.length s2)%nat.
Proof. induction s1 as [|c s1 IH]; simpl; [reflexivity | now rewrite IH]. Qed.

Lemma length_zero_pad w s : (w <= String.length (zero_pad w s))%nat.
Proof. unfold zero_pad. rewrite string_length_app, length_zeros. lia. Qed.

Lemma all_chars_uuid_hex u :
  all_chars (λ c, In c lower_hex_chars) (uuid_hex u).
Proof.
  apply all_chars_app; [apply all_chars_zeros | apply all_chars_format_x].
Qed.

Lemma length_uuid_hex u : (32 <= String.length (uuid_hex u))%nat.
Proof. apply length_zero_pad. Qed.

Lemma all_chars_slice_to P k : ∀ s,
  all_chars P s → all_chars P (slice_to k s).
Proof.
  unfold slice_to. induction k as [|k IH]; intros [|c s]; simpl; auto.
  intros [? ?]. auto.
Qed.

Lemma length_slice_to k : ∀ s,
  (k <= String.length s)%nat → String.length (slice_to k s) = k.
Proof.
  unfold slice_to. induction k as [|k IH]; intros [|c s]; simpl;
    try reflexivity; try lia.
  intros H. f_equal. apply IH. lia.
Qed.

Lemma upper_char_hex c :
  In c lower_hex_chars → In (upper_char c) upper_hex_chars.
Proof.
  unfold lower_hex_chars; simpl.
  intros H. repeat (destruct H as [<-|H]; [vm_compute; auto 20|]).
  contradiction.
Qed.

Lemma all_chars_upper s :
  all_chars (λ c, In c lower_hex_chars) s →
  all_chars (λ c, In c upper_hex_chars) (upper s).
Proof.
  induction s as [|c s IH]; simpl; [auto|].
  intros [? ?]. split; [apply upper_char_hex|]; auto.
Qed.

Lemma length_upper s : String.length (upper s) = String.length s.
Proof. induction s as [|c s IH]; simpl; [reflexivity | now rewrite IH]. Qed.

End Emitter.

(** C6. [generate_proof] puts the [discipline_passed] of its argument,
    unchanged, into [discipline_valid]; the handler of
    [POST /generate-proof] passes it the result of running
    [evaluate_discipline] on the static transactions, so the
    [discipline_valid] it answers is the [discipline_passed] of that
    evaluation. *)
Theorem discipline_valid_copies_discipline_passed :
  (∀ (w : World) (r : DisciplineResult),
     discipline_valid (generate_proof w r) = discipline_passed r)
  ∧ (∀ w : World,
       generate w = generate_proof w (evaluate_discipline transactions)
       ∧ discipline_valid (generate w)
         = discipline_passed (evaluate_discipline transactions)).
Proof. split; [reflexivity|]. intros w. split; reflexivity. Qed.

(** C7. Whatever the argument and whatever the random source gives, the
    [proof_id] of [generate_proof] is ["0x"] followed by exactly 8
    characters, each one of [0123456789ABCDEF]. *)
Theorem proof_id_pattern (w : World) (r : DisciplineResult) :
  is_proof_id (proof_id (generate_proof w r)).
Proof.
  exists (upper (slice_to 8 (uuid_hex (uuid4_int w)))).
  split; [reflexivity|]. split.
  - rewrite length_upper. apply length_slice_to.
    pose proof (length_uuid_hex (uuid4_int w)). lia.
  - apply all_chars_upper, all_chars_slice_to, all_chars_uuid_hex.
Qed.

(** C10. [generate_proof] depends on its argument through
    [discipline_passed] only: on two results with the same
    [discipline_passed], and the same identifier and clock reading, it
    returns the same record, whatever their [budget_ok], [impulse_ok],
    [savings_ok] and [debug]. *)
Theorem generate_proof_reads_only_discipline_passed
    (w : World) (r1 r2 : DisciplineResult) :
  discipline_passed r1 = discipline_passed r2 →
  generate_proof w r1 = generate_proof w r2.
Proof. intros H. unfold generate_proof. rewrite H. reflexivity. Qed.

Lemma generate_proof_reads_only_discipline_passed_witness :
  let w := mkWorld 0xDEADBEEF00000000400000008000000F "2026-01-20T10:11:12" in
  let r1 := mkResult true false true false (mkDebug 7700 7700 5000) in
  let r2 := mkResult false true false false (mkDebug 1 2 3) in
  discipline_passed r1 = discipline_passed r2
  ∧ generate_proof w r1 = generate_proof w r2.
Proof.
  cbv zeta. split; [reflexivity|].
  apply generate_proof_reads_only_discipline_passed. reflexivity.
Defined.

(** ** More on the evaluator *)

Section EvaluatorFacts.

Lemma debug_evaluate_discipline txs :
  debug (evaluate_discipline txs)
  = mkDebug (sum_amounts (spend_txs txs)) (sum_amounts (impulse_txs txs))
            (sum_amounts (savings_txs txs)).
Proof. unfold evaluate_discipline; simpl. rewrite run_loop_sums. reflexivity. Qed.

Lemma budget_ok_evaluate_discipline txs :
  budget_ok (evaluate_discipline txs)
  = (sum_amounts (spend_txs txs) <=? USER_BUDGET).
Proof. unfold evaluate_discipline; simpl. rewrite run_loop_sums. reflexivity. Qed.

Lemma impulse_ok_evaluate_discipline txs :
  impulse_ok (evaluate_discipline txs)
  = (sum_amounts (impulse_txs txs) <? PREVIOUS_MONTH_IMPULSE_SPEND).
Proof. unfold evaluate_discipline; simpl. rewrite run_loop_sums. reflexivity. Qed.

Lemma savings_ok_evaluate_discipline txs :
  savings_ok (evaluate_discipline txs)
  = (sum_amounts (savings_txs txs) >=? SAVINGS_TARGET).
Proof. unfold evaluate_discipline; simpl. rewrite run_loop_sums. reflexivity. Qed.

Lemma evaluate_discipline_run_loop txs txs' :
  run_loop txs = run_loop txs' →
  evaluate_discipline txs = evaluate_discipline txs'.
Proof. unfold evaluate_discipline. intros ->. reflexivity. Qed.

Lemma sum_amounts_Permutation l l' :
  l ≡ₚ l' → sum_amounts l = sum_amounts l'.
Proof. induction 1; simpl; lia. Qed.

Lemma loop_body_ext a tx tx' :
  amount tx = amount tx' → category tx = category tx' →
  loop_body a tx = loop_body a tx'.
Proof. unfold loop_body. intros -> ->. reflexivity. Qed.

Lemma fold_loop_body_ext l1 : ∀ l2 a,
  map (λ tx, (amount tx, category tx)) l1
  = map (λ tx, (amount tx, category tx)) l2 →
  fold_left loop_body l1 a = fold_left loop_body l2 a.
Proof.
  induction l1 as [|tx l1 IH]; intros [|tx' l2] a H; simpl in H;
    try discriminate; [reflexivity|].
  injection H as Ha Hc Hrest. simpl.
  rewrite (loop_body_ext a tx tx' Ha Hc). apply IH, Hrest.
Qed.

Lemma sum_amounts_nonneg l :
  Forall (λ tx, 0 <= amount tx) l → 0 <= sum_amounts l.
Proof. induction 1; simpl; lia. Qed.

Lemma Forall_nonneg_filter (P : Transaction → Prop)
    `{∀ tx, Decision (P tx)} l :
  Forall (λ tx, 0 <= amount tx) l →
  Forall (λ tx, 0 <= amount tx) (filter P l).
Proof.
  induction 1 as [|tx l Htx _ IH]; [constructor|].
  rewrite filter_cons. destruct (decide (P tx)); [constructor|]; assumption.
Qed.

Lemma filter_all (P : Transaction → Prop) `{∀ tx, Decision (P tx)} l :
  Forall P l → filter P l = l.
Proof.
  induction 1 as [|tx l Htx _ IH]; [reflexivity|].
  rewrite filter_cons, IH. destruct (decide (P tx)); tauto.
Qed.

Lemma filter_none (P : Transaction → Prop) `{∀ tx, Decision (P tx)} l :
  Forall (λ tx, ¬ P tx) l → filter P l = [].
Proof.
  induction 1 as [|tx l Htx _ IH]; [reflexivity|].
  rewrite filter_cons, IH. destruct (decide (P tx)); tauto.
Qed.

End EvaluatorFacts.

(** X1. The order of the transactions does not matter: on two sequences
    that are permutations of each other [evaluate_discipline] returns the
    same result. *)
Theorem evaluate_discipline_permutation (txs txs' : list Transaction) :
  txs ≡ₚ txs' → evaluate_discipline txs = evaluate_discipline txs'.
Proof.
  intros H. apply evaluate_discipline_run_loop. rewrite !run_loop_sums.
  unfold spend_txs, impulse_txs, savings_txs.
  f_equal; apply sum_amounts_Permutation; rewrite H; reflexivity.
Qed.

Lemma evaluate_discipline_permutation_witness :
  let a := mkTx 4500 "food" "2026-03-01" in
  let b := mkTx 6000 "savings" "2026-03-02" in
  [a; b] ≡ₚ [b; a]
  ∧ evaluate_discipline [a; b] = evaluate_discipline [b; a].
Proof.
  cbv zeta. split; [apply perm_swap|].
  apply evaluate_discipline_permutation, perm_swap.
Defined.

(** X2. The sums are additive: the three sums reported for two sequences
    put end to end are the sums reported for each, added up. *)
Theorem evaluate_discipline_app (l1 l2 : list Transaction) :
  let d := debug (evaluate_discipline (l1 ++ l2)%list) in
  let d1 := debug (evaluate_discipline l1) in
  let d2 := debug (evaluate_discipline l2) in
  total_spend d = total_spend d1 + total_spend d2
  ∧ impulse_spend d = impulse_spend d1 + impulse_spend d2
  ∧ total_savings d = total_savings d1 + total_savings d2.
Proof.
  cbv zeta. rewrite !debug_evaluate_discipline. simpl.
  unfold spend_txs, impulse_txs, savings_txs.
  rewrite !filter_app, !sum_amounts_app. auto.
Qed.

(** X3. The evaluator never reads the date: two sequences with the same
    amounts and categories, position by position, get the same result. *)
Theorem evaluate_discipline_ignores_date (l1 l2 : list Transaction) :
  map (λ tx, (amount tx, category tx)) l1
  = map (λ tx, (amount tx, category tx)) l2 →
  evaluate_discipline l1 = evaluate_discipline l2.
Proof.
  intros H. apply evaluate_discipline_run_loop. unfold run_loop.
  apply fold_loop_body_ext, H.
Qed.

Lemma evaluate_discipline_ignores_date_witness :
  let l1 := [mkTx 900 "travel" "2026-03-01"; mkTx 5000 "savings" "2026-03-09"] in
  let l2 := [mkTx 900 "travel" "1999-12-31"; mkTx 5000 "savings" "not a date"] in
  map (λ tx, (amount tx, category tx)) l1
  = map (λ tx, (amount tx, category tx)) l2
  ∧ evaluate_discipline l1 = evaluate_discipline l2.
Proof.
  cbv zeta. split; [reflexivity|].
  apply evaluate_discipline_ignores_date. reflexivity.
Defined.

(** X4. Without a transaction of category ["savings"] the discipline
    cannot pass, whatever the amounts: the savings sum is 0, below the
    target, so [savings_ok] and [discipline_passed] are false. *)
Theorem no_savings_fails (txs : list Transaction) :
  Forall (λ tx, category tx ≠ "savings") txs →
  let r := evaluate_discipline txs in
  total_savings (debug r) = 0
  ∧ savings_ok r = false ∧ discipline_passed r = false.
Proof.
  intros H. cbv zeta.
  assert (E : sum_amounts (savings_txs txs) = 0).
  { unfold savings_txs. rewrite filter_none; [reflexivity|].
    eapply Forall_impl; [exact H|]. auto. }
  assert (S : savings_ok (evaluate_discipline txs) = false).
  { rewrite savings_ok_evaluate_discipline, E. reflexivity. }
  split; [rewrite debug_evaluate_discipline; exact E|].
  split; [exact S|].
  change (discipline_passed (evaluate_discipline txs))
    with (budget_ok (evaluate_discipline txs)
          && impulse_ok (evaluate_discipline txs)
          && savings_ok (evaluate_discipline txs)).
  rewrite S. apply andb_false_r.
Qed.

Lemma no_savings_fails_witness :
  let txs := [mkTx 120 "food" "2026-03-01"; mkTx 800 "rent" "2026-03-02"] in
  Forall (λ tx, category tx ≠ "savings") txs
  ∧ total_savings (debug (evaluate_discipline txs)) = 0
  ∧ savings_ok (evaluate_discipline txs) = false
  ∧ discipline_passed (evaluate_discipline txs) = false.
Proof.
  cbv zeta. split; [repeat constructor; discriminate|].
  apply no_savings_fails. repeat constructor; discriminate.
Defined.

(** X5. Transactions of category ["savings"] touch neither the spend nor
    the impulse sum: appending any number of them leaves [total_spend],
    [impulse_spend], [budget_ok] and [impulse_ok] as they were, and adds
    their amounts to [total_savings]. *)
Theorem savings_leave_spend_alone (txs extra : list Transaction) :
  Forall (λ tx, category tx = "savings") extra →
  let r := evaluate_discipline txs in
  let r' := evaluate_discipline (txs ++ extra)%list in
  total_spend (debug r') = total_spend (debug r)
  ∧ impulse_spend (debug r') = impulse_spend (debug r)
  ∧ total_savings (debug r') = total_savings (debug r) + sum_amounts extra
  ∧ budget_ok r' = budget_ok r ∧ impulse_ok r' = impulse_ok r.
Proof.
  intros H. cbv zeta.
  assert (Es : spend_txs extra = []).
  { unfold spend_txs. apply filter_none.
    eapply Forall_impl; [exact H|]. simpl. tauto. }
  assert (Ei : impulse_txs extra = []).
  { unfold impulse_txs. apply filter_none.
    eapply Forall_impl; [exact H|]. simpl. intros tx -> M.
    exact (savings_not_impulse M). }
  assert (Ev : savings_txs extra = extra).
  { unfold savings_txs. apply filter_all, H. }
  rewrite !debug_evaluate_discipline, !budget_ok_evaluate_discipline,
    !impulse_ok_evaluate_discipline. simpl.
  unfold spend_txs, impulse_txs, savings_txs in *.
  rewrite !filter_app, !sum_amounts_app, Es, Ei, Ev. simpl.
  rewrite !Z.add_0_r. auto.
Qed.

Lemma savings_leave_spend_alone_witness :
  let extra := [mkTx 700 "savings" "2026-03-20"; mkTx 50 "savings" "2026-03-21"] in
  Forall (λ tx, category tx = "savings") extra
  ∧ budget_ok (evaluate_discipline (transactions ++ extra)%list)
    = budget_ok (evaluate_discipline transactions)
  ∧ impulse_ok (evaluate_discipline (transactions ++ extra)%list)
    = impulse_ok (evaluate_discipline transactions).
Proof.
  cbv zeta. split; [repeat constructor|].
  apply (savings_leave_spend_alone transactions
           [mkTx 700 "savings" "2026-03-20"; mkTx 50 "savings" "2026-03-21"]).
  repeat constructor.
Defined.

(** X6. A category that is neither ["savings"] nor an impulse category
    counts as plain spend: appending such transactions adds their amounts
    to [total_spend] and leaves [impulse_spend], [total_savings],
    [impulse_ok] and [savings_ok] as they were. *)
Theorem unknown_category_is_plain_spend (txs extra : list Transaction) :
  Forall (λ tx, category tx ≠ "savings"
                ∧ category tx ∉ IMPULSE_CATEGORIES) extra →
  let r := evaluate_discipline txs in
  let r' := evaluate_discipline (txs ++ extra)%list in
  total_spend (debug r') = total_spend (debug r) + sum_amounts extra
  ∧ impulse_spend (debug r') = impulse_spend (debug r)
  ∧ total_savings (debug r') = total_savings (debug r)
  ∧ impulse_ok r' = impulse_ok r ∧ savings_ok r' = savings_ok r.
Proof.
  intros H. cbv zeta.
  assert (Es : spend_txs extra = extra).
  { unfold spend_txs. apply filter_all.
    eapply Forall_impl; [exact H|]. simpl. tauto. }
  assert (Ei : impulse_txs extra = []).
  { unfold impulse_txs. apply filter_none.
    eapply Forall_impl; [exact H|]. simpl. tauto. }
  assert (Ev : savings_txs extra = []).
  { unfold savings_txs. apply filter_none.
    eapply Forall_impl; [exact H|]. simpl. tauto. }
  rewrite !debug_evaluate_discipline, !savings_ok_evaluate_discipline,
    !impulse_ok_evaluate_discipline. simpl.
  unfold spend_txs, impulse_txs, savings_txs in *.
  rewrite !filter_app, !sum_amounts_app, Es, Ei, Ev. simpl.
  rewrite !Z.add_0_r. auto.
Qed.

Lemma unknown_category_is_plain_spend_witness :
  let extra := [mkTx 9000 "rent" "2026-03-01"; mkTx 40 "Savings" "2026-03-02"] in
  Forall (λ tx, category tx ≠ "savings"
                ∧ category tx ∉ IMPULSE_CATEGORIES) extra
  ∧ total_spend (debug (evaluate_discipline (transactions ++ extra)%list))
    = total_spend (debug (evaluate_discipline transactions)) + 9040
  ∧ impulse_spend (debug (evaluate_discipline (transactions ++ extra)%list))
    = impulse_spend (debug (evaluate_discipline transactions)).
Proof.
  cbv zeta.
  assert (H : Forall (λ tx, category tx ≠ "savings"
                            ∧ category tx ∉ IMPULSE_CATEGORIES)
                [mkTx 9000 "rent" "2026-03-01"; mkTx 40 "Savings" "2026-03-02"]).
  { repeat constructor; simpl; try discriminate;
      unfold IMPULSE_CATEGORIES;
      rewrite !not_elem_of_union, !not_elem_of_singleton;
      repeat split; discriminate. }
  split; [exact H|].
  destruct (unknown_category_is_plain_spend transactions _ H)
    as (Hs & Hi & _).
  split; [exact Hs | exact Hi].
Defined.

(** X7. With amounts that are not negative the checks are monotone in
    the sequence: appending transactions cannot repair a failed budget or
    impulse check, and cannot break a savings check that passed. *)
Theorem checks_monotone (l1 l2 : list Transaction) :
  Forall (λ tx, 0 <= amount tx) l2 →
  let r := evaluate_discipline l1 in
  let r' := evaluate_discipline (l1 ++ l2)%list in
  (budget_ok r = false → budget_ok r' = false)
  ∧ (impulse_ok r = false → impulse_ok r' = false)
  ∧ (savings_ok r = true → savings_ok r' = true).
Proof.
  intros H. cbv zeta.
  rewrite !budget_ok_evaluate_discipline, !impulse_ok_evaluate_discipline,
    !savings_ok_evaluate_discipline.
  unfold spend_txs, impulse_txs, savings_txs.
  rewrite !filter_app, !sum_amounts_app.
  pose proof (sum_amounts_nonneg _
    (Forall_nonneg_filter (λ tx, category tx ≠ "savings") l2 H)).
  pose proof (sum_amounts_nonneg _
    (Forall_nonneg_filter (λ tx, category tx ∈ IMPULSE_CATEGORIES) l2 H)).
  pose proof (sum_amounts_nonneg _
    (Forall_nonneg_filter (λ tx, category tx = "savings") l2 H)).
  rewrite !Z.geb_leb, !Z.leb_gt, !Z.ltb_ge, !Z.leb_le. lia.
Qed.

Lemma checks_monotone_witness :
  let l2 := [mkTx 15000 "rent" "2026-03-01"; mkTx 0 "food" "2026-03-02"] in
  Forall (λ tx, 0 <= amount tx) l2
  ∧ impulse_ok (evaluate_discipline transactions) = false
  ∧ impulse_ok (evaluate_discipline (transactions ++ l2)%list) = false
  ∧ savings_ok (evaluate_discipline (transactions ++ l2)%list) = true.
Proof.
  cbv zeta.
  assert (H : Forall (λ tx, 0 <= amount tx)
                [mkTx 15000 "rent" "2026-03-01"; mkTx 0 "food" "2026-03-02"]).
  { repeat constructor; simpl; lia. }
  split; [exact H|].
  destruct (checks_monotone transactions _ H) as (_ & Hi & Hs).
  split; [vm_compute; reflexivity|].
  split; [apply Hi; vm_compute; reflexivity
         | apply Hs; vm_compute; reflexivity].
Defined.

(** X8. With amounts that are not negative, each of the three sums lies
    between 0 and the sum of all the amounts. *)
Theorem sums_bounded (txs : list Transaction) :
  Forall (λ tx, 0 <= amount tx) txs →
  let d := debug (evaluate_discipline txs) in
  0 <= total_spend d <= sum_amounts txs
  ∧ 0 <= impulse_spend d <= sum_amounts txs
  ∧ 0 <= total_savings d <= sum_amounts txs.
Proof.
  intros H. cbv zeta. rewrite debug_evaluate_discipline. simpl.
  pose proof (sum_amounts_split txs).
  pose proof (sum_impulse_le_spend txs H).
  pose proof (sum_amounts_nonneg _
    (Forall_nonneg_filter (λ tx, category tx ≠ "savings") txs H)).
  pose proof (sum_amounts_nonneg _
    (Forall_nonneg_filter (λ tx, category tx ∈ IMPULSE_CATEGORIES) txs H)).
  pose proof (sum_amounts_nonneg _
    (Forall_nonneg_filter (λ tx, category tx = "savings") txs H)).
  unfold spend_txs, impulse_txs, savings_txs in *. lia.
Qed.

Lemma sums_bounded_witness :
  Forall (λ tx, 0 <= amount tx) boundary_month
  ∧ 0 <= impulse_spend (debug (evaluate_discipline boundary_month))
      <= sum_amounts boundary_month.
Proof.
  assert (H : Forall (λ tx, 0 <= amount tx) boundary_month).
  { unfold boundary_month. repeat constructor; simpl; lia. }
  split; [exact H|].
  destruct (sums_bounded boundary_month H) as (_ & Hi & _). exact Hi.
Defined.

(** X9. When every category is ["savings"] or an impulse category, as in
    the shipped data, the impulse spend is the whole spend, whatever the
    signs of the amounts; a passed impulse check then implies a passed
    budget check. *)
Theorem all_spend_is_impulse (txs : list Transaction) :
  Forall (λ tx, category tx = "savings"
                ∨ category tx ∈ IMPULSE_CATEGORIES) txs →
  let r := evaluate_discipline txs in
  impulse_spend (debug r) = total_spend (debug r)
  ∧ (impulse_ok r = true → budget_ok r = true).
Proof.
  intros H. cbv zeta.
  assert (E : impulse_txs txs = spend_txs txs).
  { unfold impulse_txs, spend_txs.
    induction H as [|tx txs Htx _ IH]; [reflexivity|].
    rewrite !filter_cons, IH.
    destruct (decide (category tx ∈ IMPULSE_CATEGORIES)) as [M|M];
      destruct (decide (category tx ≠ "savings")) as [D|D];
      try reflexivity.
    - apply dec_stable in D. rewrite D in M.
      destruct (savings_not_impulse M).
    - destruct Htx; tauto. }
  rewrite debug_evaluate_discipline, budget_ok_evaluate_discipline,
    impulse_ok_evaluate_discipline. simpl. rewrite E.
  split; [reflexivity|].
  rewrite Z.ltb_lt, Z.leb_le.
  unfold PREVIOUS_MONTH_IMPULSE_SPEND, USER_BUDGET. lia.
Qed.

Lemma all_spend_is_impulse_witness :
  Forall (λ tx, category tx = "savings"
                ∨ category tx ∈ IMPULSE_CATEGORIES) transactions
  ∧ impulse_spend (debug (evaluate_discipline transactions))
    = total_spend (debug (evaluate_discipline transactions)).
Proof.
  assert (H : Forall (λ tx, category tx = "savings"
                            ∨ category tx ∈ IMPULSE_CATEGORIES) transactions).
  { unfold transactions, IMPULSE_CATEGORIES.
    repeat constructor; simpl;
      rewrite ?elem_of_union, ?elem_of_singleton; tauto. }
  split; [exact H|].
  destruct (all_spend_is_impulse transactions H) as (E & _). exact E.
Defined.

(** X16. End to end: the discipline passes exactly when the amounts
    outside ["savings"] add up to at most the budget, those in an impulse
    category to less than last month's impulse spend, and those in
    ["savings"] to at least the target. *)
Theorem discipline_passed_iff (txs : list Transaction) :
  discipline_passed (evaluate_discipline txs) = true
  ↔ sum_amounts (spend_txs txs) <= USER_BUDGET
    ∧ sum_amounts (impulse_txs txs) < PREVIOUS_MONTH_IMPULSE_SPEND
    ∧ SAVINGS_TARGET <= sum_amounts (savings_txs txs).
Proof.
  change (discipline_passed (evaluate_discipline txs))
    with (budget_ok (evaluate_discipline txs)
          && impulse_ok (evaluate_discipline txs)
          && savings_ok (evaluate_discipline txs)).
  rewrite budget_ok_evaluate_discipline, impulse_ok_evaluate_discipline,
    savings_ok_evaluate_discipline.
  rewrite !andb_true_iff, Z.leb_le, Z.ltb_lt, Z.geb_leb, Z.leb_le. tauto.
Qed.

Lemma discipline_passed_iff_witness :
  let txs := [mkTx 3999 "travel" "2026-03-01"; mkTx 16001 "rent" "2026-03-02";
              mkTx 5000 "savings" "2026-03-03"] in
  (sum_amounts (spend_txs txs) <= USER_BUDGET
   ∧ sum_amounts (impulse_txs txs) < PREVIOUS_MONTH_IMPULSE_SPEND
   ∧ SAVINGS_TARGET <= sum_amounts (savings_txs txs))
  ∧ discipline_passed (evaluate_discipline txs) = true.
Proof.
  cbv zeta.
  assert (H : sum_amounts (spend_txs
                [mkTx 3999 "travel" "2026-03-01"; mkTx 16001 "rent" "2026-03-02";
                 mkTx 5000 "savings" "2026-03-03"]) <= USER_BUDGET
              ∧ sum_amounts (impulse_txs
                [mkTx 3999 "travel" "2026-03-01"; mkTx 16001 "rent" "2026-03-02";
                 mkTx 5000 "savings" "2026-03-03"]) < PREVIOUS_MONTH_IMPULSE_SPEND
              ∧ SAVINGS_TARGET <= sum_amounts (savings_txs
                [mkTx 3999 "travel" "2026-03-01"; mkTx 16001 "rent" "2026-03-02";
                 mkTx 5000 "savings" "2026-03-03"])).
  { repeat split; vm_compute; congruence. }
  split; [exact H|].
  exact (proj2 (discipline_passed_iff _) H).
Defined.

(** ** The evaluator on dicts *)

Section RawFacts.

Lemma loop_body_raw_to_dict a tx :
  loop_body_raw a (to_dict tx) = Returned (Logic.loop_body a tx).
Proof.
  unfold loop_body_raw, Logic.loop_body, subscript, to_dict.
  simplify_map_eq. simpl.
  destruct (String.eqb (category tx) "savings");
    destruct (bool_decide (category tx ∈ IMPULSE_CATEGORIES)); reflexivity.
Qed.

Lemma run_loop_raw_to_dict txs : ∀ a,
  run_loop_raw a (map to_dict txs) = Returned (fold_left Logic.loop_body txs a).
Proof.
  induction txs as [|tx txs IH]; intros a; [reflexivity|].
  simpl. rewrite loop_body_raw_to_dict. simpl. apply IH.
Qed.

Lemma loop_body_raw_ext a d d' :
  d !! "category" = d' !! "category" → d !! "amount" = d' !! "amount" →
  loop_body_raw a d = loop_body_raw a d'.
Proof. unfold loop_body_raw, subscript. intros -> ->. reflexivity. Qed.

Lemma loop_body_raw_error a d e :
  tx_error d = Some e → loop_body_raw a d = Raised e.
Proof.
  unfold tx_error, loop_body_raw, subscript.
  destruct (d !! "category") as [c|]; [|intros [= <-]; reflexivity].
  destruct (d !! "amount") as [[n|t]|]; intros [= <-]; simpl;
    destruct (eq_savings c); reflexivity.
Qed.

Lemma loop_body_raw_ok a d :
  tx_error d = None → ∃ a', loop_body_raw a d = Returned a'.
Proof.
  unfold tx_error, loop_body_raw, subscript.
  destruct (d !! "category") as [c|]; [|discriminate].
  destruct (d !! "amount") as [[n|t]|]; try discriminate. intros _. simpl.
  destruct (eq_savings c); simpl; destruct (in_impulse c); simpl; eauto.
Qed.

Lemma run_loop_raw_first_error l1 d l2 e : ∀ a,
  Forall (λ d, tx_error d = None) l1 → tx_error d = Some e →
  run_loop_raw a (l1 ++ d :: l2)%list = Raised e.
Proof.
  induction l1 as [|d1 l1 IH]; intros a Hok He; simpl.
  - rewrite (loop_body_raw_error a d e He). reflexivity.
  - inversion Hok as [|? ? H1 Hrest]; subst.
    destruct (loop_body_raw_ok a d1 H1) as [a' ->]. simpl.
    apply IH; assumption.
Qed.

Lemma run_loop_raw_ok txs : ∀ a,
  Forall (λ d, tx_error d = None) txs → ∃ a', run_loop_raw a txs = Returned a'.
Proof.
  induction txs as [|d txs IH]; intros a Hok; simpl; [eauto|].
  inversion Hok as [|? ? H1 Hrest]; subst.
  destruct (loop_body_raw_ok a d H1) as [a' ->]. simpl. apply IH, Hrest.
Qed.

Lemma run_loop_raw_returned txs : ∀ a a',
  run_loop_raw a txs = Returned a' → Forall (λ d, tx_error d = None) txs.
Proof.
  induction txs as [|d txs IH]; intros a a' H; [constructor|].
  simpl in H. destruct (tx_error d) as [e|] eqn:E.
  - rewrite (loop_body_raw_error a d e E) in H. discriminate.
  - constructor; [exact E|].
    destruct (loop_body_raw_ok a d E) as [a1 E1]. rewrite E1 in H.
    simpl in H. eapply IH, H.
Qed.

End RawFacts.

(** X10. On dicts that carry an [int] amount, a [str] category and a
    date, the loop raises nothing and returns the result computed on the
    corresponding records. *)
Theorem evaluate_discipline_raw_to_dict (txs : list Transaction) :
  evaluate_discipline_raw (map to_dict txs)
  = Returned (Logic.evaluate_discipline txs).
Proof.
  unfold evaluate_discipline_raw, Logic.evaluate_discipline, Logic.run_loop.
  rewrite run_loop_raw_to_dict. reflexivity.
Qed.

(** X11. Only the keys ["category"] and ["amount"] are read: two
    sequences of dicts that agree on these two keys, position by
    position, have the same outcome, be it a result or an exception; a
    missing date or any other key makes no difference. *)
Theorem evaluate_discipline_raw_reads_two_keys
    (l1 l2 : list (gmap string value)) :
  Forall2 (λ d d', d !! "category" = d' !! "category"
                   ∧ d !! "amount" = d' !! "amount") l1 l2 →
  evaluate_discipline_raw l1 = evaluate_discipline_raw l2.
Proof.
  intros H. unfold evaluate_discipline_raw.
  enough (E : ∀ a, run_loop_raw a l1 = run_loop_raw a l2) by (rewrite E; reflexivity).
  induction H as [|d d' l1 l2 [Hc Ha] _ IH]; intros a; [reflexivity|].
  simpl. rewrite (loop_body_raw_ext a d d' Hc Ha).
  destruct (loop_body_raw a d'); simpl; [reflexivity | apply IH].
Qed.

Lemma evaluate_discipline_raw_reads_two_keys_witness :
  let l1 := [to_dict (mkTx 300 "food" "2026-03-01")] in
  let l2 := [ ({[ "category" := VStr "food"; "amount" := VInt 300;
                  "note" := VStr "lunch" ]} : gmap string value) ] in
  Forall2 (λ d d', d !! "category" = d' !! "category"
                   ∧ d !! "amount" = d' !! "amount") l1 l2
  ∧ evaluate_discipline_raw l1 = evaluate_discipline_raw l2.
Proof.
  cbv zeta.
  assert (H : Forall2 (λ d d' : gmap string value,
                         d !! "category" = d' !! "category"
                         ∧ d !! "amount" = d' !! "amount")
                [to_dict (mkTx 300 "food" "2026-03-01")]
                [ {[ "category" := VStr "food"; "amount" := VInt 300;
                     "note" := VStr "lunch" ]} ]).
  { repeat constructor; vm_compute; reflexivity. }
  split; [exact H|].
  exact (evaluate_discipline_raw_reads_two_keys _ _ H).
Defined.

(** X12. The first dict that is not well formed decides the exception:
    after any number of good dicts, a dict without ["category"] raises
    [KeyError] on that key (even if ["amount"] is missing too), one
    without ["amount"] raises [KeyError] on it, one whose amount is a
    [str] raises [TypeError]; the dicts after it are never looked at. *)
Theorem evaluate_discipline_raw_first_error
    (l1 l2 : list (gmap string value)) (d : gmap string value) (e : exn) :
  Forall (λ d, tx_error d = None) l1 → tx_error d = Some e →
  evaluate_discipline_raw (l1 ++ d :: l2)%list = Raised e.
Proof.
  intros Hok He. unfold evaluate_discipline_raw.
  rewrite (run_loop_raw_first_error l1 d l2 e acc0 Hok He). reflexivity.
Qed.

Lemma evaluate_discipline_raw_first_error_witness :
  let good := [to_dict (mkTx 300 "food" "2026-03-01")] in
  let bad : gmap string value := {[ "date" := VStr "2026-03-02" ]} in
  let rest : list (gmap string value) := [ {[ "category" := VStr "food" ]} ] in
  Forall (λ d, tx_error d = None) good
  ∧ tx_error bad = Some (KeyError "category")
  ∧ evaluate_discipline_raw (good ++ bad :: rest)%list
    = Raised (KeyError "category").
Proof.
  cbv zeta.
  assert (H : Forall (λ d, tx_error d = None)
                [to_dict (mkTx 300 "food" "2026-03-01")]).
  { repeat constructor. }
  split; [exact H|]. split; [vm_compute; reflexivity|].
  apply evaluate_discipline_raw_first_error; [exact H|].
  vm_compute; reflexivity.
Defined.

(** X13. The evaluator returns a result exactly when every dict has a
    ["category"] (of any type) and an [int] ["amount"]; a category that
    is not a string is accepted without complaint. *)
Theorem evaluate_discipline_raw_returns_iff (txs : list (gmap string value)) :
  (∃ r, evaluate_discipline_raw txs = Returned r)
  ↔ Forall (λ d, tx_error d = None) txs.
Proof.
  unfold evaluate_discipline_raw. split.
  - intros [r H]. destruct (run_loop_raw acc0 txs) as [e|a] eqn:E;
      [discriminate|]. eapply run_loop_raw_returned, E.
  - intros Hok. destruct (run_loop_raw_ok txs acc0 Hok) as [a ->].
    simpl. eauto.
Qed.

Lemma evaluate_discipline_raw_returns_iff_witness :
  let txs : list (gmap string value) :=
    [ {[ "category" := VInt 7; "amount" := VInt 12 ]} ] in
  Forall (λ d, tx_error d = None) txs
  ∧ ∃ r, evaluate_discipline_raw txs = Returned r.
Proof.
  cbv zeta.
  assert (H : Forall (λ d, tx_error d = None)
                [ ({[ "category" := VInt 7; "amount" := VInt 12 ]}
                   : gmap string value) ]).
  { repeat constructor. }
  split; [exact H|].
  exact (proj2 (evaluate_discipline_raw_returns_iff _) H).
Defined.

(** ** The identifier as hexadecimal text *)

Section HexFacts.

Local Open Scope N_scope.

Lemma of_lu_digit_cons m d :
  m < 16 →
  HexadecimalPos.Unsigned.of_lu (digit_cons m d)
  = m + 16 * HexadecimalPos.Unsigned.of_lu d.
Proof.
  intros Hm. rewrite <- (N2Nat.id m) at 2.
  assert (Hj : (N.to_nat m < 16)%nat) by lia. revert Hj.
  unfold digit_cons; generalize (N.to_nat m); intros j Hj.
  do 16 (destruct j as [|j]; [reflexivity|]). lia.
Qed.

Lemma of_lu_little_digits k : ∀ n,
  HexadecimalPos.Unsigned.of_lu (little_digits k n) = n mod 16 ^ N.of_nat k.
Proof.
  induction k as [|k IH]; intros n.
  - simpl. rewrite N.mod_1_r. reflexivity.
  - simpl little_digits. rewrite of_lu_digit_cons by (apply N.mod_lt; lia).
    rewrite IH, Nat2N.inj_succ, N.pow_succ_r'.
    rewrite N.Div0.mod_mul_r. reflexivity.
Qed.

Lemma to_hex_uint_little_digits k n :
  n < 16 ^ N.of_nat k →
  N.to_hex_uint n
  = Hexadecimal.unorm (Hexadecimal.rev (little_digits k n)).
Proof.
  intros Hn. rewrite <- HexadecimalN.Unsigned.to_of. f_equal.
  unfold N.of_hex_uint. rewrite HexadecimalPos.Unsigned.of_lu_rev.
  rewrite of_lu_little_digits. symmetry. apply N.mod_small, Hn.
Qed.

Lemma string_app_cons c (s t : string) :
  String c s +:+ t = String c (s +:+ t).
Proof. reflexivity. Qed.

Lemma string_app_assoc (s1 s2 s3 : string) :
  (s1 +:+ s2) +:+ s3 = s1 +:+ (s2 +:+ s3).
Proof.
  induction s1 as [|c s1 IH]; [reflexivity|].
  rewrite !string_app_cons, IH. reflexivity.
Qed.

Lemma string_app_nil_r (s : string) : s +:+ EmptyString = s.
Proof.
  induction s as [|c s IH]; [reflexivity|].
  rewrite string_app_cons, IH. reflexivity.
Qed.

Lemma string_of_uint_revapp d : ∀ d',
  NilEmpty.string_of_uint (Hexadecimal.revapp d d')
  = NilEmpty.string_of_uint (Hexadecimal.rev d)
    +:+ NilEmpty.string_of_uint d'.
Proof.
  unfold Hexadecimal.rev.
  induction d as [|d IH|d IH|d IH|d IH|d IH|d IH|d IH|d IH|d IH|d IH
                  |d IH|d IH|d IH|d IH|d IH|d IH]; intros d'; simpl;
    [reflexivity|..];
    rewrite IH, (IH (_ Nil)), string_app_assoc; reflexivity.
Qed.

Lemma string_of_uint_rev_digit_cons m d :
  NilEmpty.string_of_uint (Hexadecimal.rev (digit_cons m d))
  = NilEmpty.string_of_uint (Hexadecimal.rev d)
    +:+ String (nth (N.to_nat m) lower_hex_chars "0"%char) EmptyString.
Proof.
  unfold digit_cons; generalize (N.to_nat m); intros j.
  do 16 (destruct j as [|j];
         [unfold Hexadecimal.rev; simpl Hexadecimal.revapp;
          rewrite string_of_uint_revapp; reflexivity|]).
  unfold Hexadecimal.rev; simpl Hexadecimal.revapp.
  rewrite string_of_uint_revapp.
  replace (nth (S (S (S (S (S (S (S (S (S (S (S (S (S (S (S (S j))))))))))))))))
               lower_hex_chars "0"%char) with "0"%char; [reflexivity|].
  destruct j; reflexivity.
Qed.

Lemma string_of_uint_little_digits k : ∀ n,
  NilEmpty.string_of_uint (Hexadecimal.rev (little_digits k n))
  = hex_fixed lower_hex_chars k n.
Proof.
  induction k as [|k IH]; intros n; [reflexivity|].
  simpl little_digits. rewrite string_of_uint_rev_digit_cons, IH. reflexivity.
Qed.

Lemma nb_digits_digit_cons m d :
  Hexadecimal.nb_digits (digit_cons m d) = S (Hexadecimal.nb_digits d).
Proof.
  unfold digit_cons; generalize (N.to_nat m); intros j.
  do 16 (destruct j as [|j]; [reflexivity|]). reflexivity.
Qed.

Lemma nb_digits_little_digits k : ∀ n,
  Hexadecimal.nb_digits (little_digits k n) = k.
Proof.
  induction k as [|k IH]; intros n; [reflexivity|].
  simpl little_digits. rewrite nb_digits_digit_cons, IH. reflexivity.
Qed.

Lemma length_string_of_uint d :
  String.length (NilEmpty.string_of_uint d) = Hexadecimal.nb_digits d.
Proof. induction d; simpl; congruence. Qed.

Lemma string_of_uint_nzhead d :
  NilEmpty.string_of_uint d
  = zeros (Hexadecimal.nb_digits d
           - Hexadecimal.nb_digits (Hexadecimal.nzhead d))
    +:+ NilEmpty.string_of_uint (Hexadecimal.nzhead d).
Proof.
  induction d; try (simpl Hexadecimal.nzhead; rewrite Nat.sub_diag; reflexivity).
  simpl Hexadecimal.nzhead. simpl Hexadecimal.nb_digits.
  pose proof (HexadecimalFacts.nb_digits_nzhead d) as Hle.
  rewrite Nat.sub_succ_l by exact Hle.
  simpl zeros. rewrite string_app_cons. simpl NilEmpty.string_of_uint.
  f_equal. exact IHd.
Qed.

Lemma zeros_snoc k : zeros k +:+ "0" = zeros (S k).
Proof.
  induction k as [|k IH]; [reflexivity|].
  change (zeros (S k)) with (String "0" (zeros k)) at 1.
  rewrite string_app_cons, IH. reflexivity.
Qed.

(** Padding gives back the zeros that normalisation took away. *)
Lemma zero_pad_unorm d :
  (0 < Hexadecimal.nb_digits d)%nat →
  zero_pad (Hexadecimal.nb_digits d)
           (NilZero.string_of_uint (Hexadecimal.unorm d))
  = NilEmpty.string_of_uint d.
Proof.
  intros Hpos. rewrite (string_of_uint_nzhead d).
  unfold zero_pad, Hexadecimal.unorm, NilZero.string_of_uint.
  destruct (Hexadecimal.nzhead d) eqn:E;
    try (rewrite length_string_of_uint; reflexivity).
  simpl. rewrite Nat.sub_0_r, string_app_nil_r.
  destruct (Hexadecimal.nb_digits d) as [|k]; [lia|].
  simpl. rewrite Nat.sub_0_r. apply zeros_snoc.
Qed.

Lemma uuid_hex_hex_fixed u :
  u < 2 ^ 128 → uuid_hex u = hex_fixed lower_hex_chars 32 u.
Proof.
  intros Hu. unfold uuid_hex, format_x.
  rewrite (to_hex_uint_little_digits 32 u) by exact Hu.
  rewrite <- string_of_uint_little_digits.
  pose proof (nb_digits_little_digits 32 u) as Hn.
  rewrite <- HexadecimalFacts.nb_digits_rev in Hn.
  rewrite <- Hn at 1. apply zero_pad_unorm. lia.
Qed.

Lemma hex_fixed_S A k n :
  hex_fixed A (S k) n
  = hex_fixed A k (n / 16)
    +:+ String (nth (N.to_nat (n mod 16)) A "0"%char) EmptyString.
Proof. reflexivity. Qed.

Lemma length_hex_fixed A k : ∀ n, String.length (hex_fixed A k n) = k.
Proof.
  induction k as [|k IH]; intros n; [reflexivity|].
  rewrite hex_fixed_S, string_length_app, IH. simpl. lia.
Qed.

Lemma slice_to_all k : ∀ s, (String.length s <= k)%nat → slice_to k s = s.
Proof.
  unfold slice_to. induction k as [|k IH]; intros [|c s] H; simpl in *;
    try reflexivity; try lia.
  f_equal. apply IH. lia.
Qed.

Lemma slice_to_app k : ∀ s t,
  (k <= String.length s)%nat → slice_to k (s +:+ t) = slice_to k s.
Proof.
  unfold slice_to. induction k as [|k IH]; intros [|c s] t H; simpl in *;
    try lia; try reflexivity.
  - destruct t; reflexivity.
  - f_equal. apply IH. lia.
Qed.

Lemma slice_to_hex_fixed A k j : ∀ n,
  slice_to k (hex_fixed A (k + j) n) = hex_fixed A k (n / 16 ^ N.of_nat j).
Proof.
  induction j as [|j IH]; intros n.
  - rewrite Nat.add_0_r, N.div_1_r. apply slice_to_all.
    rewrite length_hex_fixed. lia.
  - rewrite Nat.add_succ_r, hex_fixed_S.
    rewrite slice_to_app by (rewrite length_hex_fixed; lia).
    rewrite IH, Nat2N.inj_succ, N.pow_succ_r', N.Div0.div_div. reflexivity.
Qed.

Lemma upper_app s : ∀ t, upper (s +:+ t) = upper s +:+ upper t.
Proof.
  induction s as [|c s IH]; intros t; [reflexivity|].
  rewrite string_app_cons. simpl upper. rewrite IH. reflexivity.
Qed.

Lemma upper_char_nth j :
  upper_char (nth j lower_hex_chars "0"%char) = nth j upper_hex_chars "0"%char.
Proof. do 16 (destruct j as [|j]; [reflexivity|]). destruct j; reflexivity. Qed.

Lemma upper_hex_fixed k : ∀ n,
  upper (hex_fixed lower_hex_chars k n) = hex_fixed upper_hex_chars k n.
Proof.
  induction k as [|k IH]; intros n; [reflexivity|].
  rewrite !hex_fixed_S, upper_app, IH.
  change (upper (String ?c EmptyString))
    with (String (upper_char c) EmptyString).
  rewrite upper_char_nth. reflexivity.
Qed.

Lemma string_snoc_inj s : ∀ s' c c',
  s +:+ String c EmptyString = s' +:+ String c' EmptyString →
  s = s' ∧ c = c'.
Proof.
  induction s as [|a s IH]; intros [|a' s'] c c' H.
  - injection H as ->. auto.
  - rewrite string_app_cons in H. injection H as _ H.
    destruct s'; discriminate.
  - rewrite string_app_cons in H. injection H as _ H.
    destruct s; discriminate.
  - rewrite !string_app_cons in H. injection H as -> H.
    destruct (IH _ _ _ H) as [-> ->]. auto.
Qed.

Lemma nth_upper_hex_inj i j :
  (i < 16)%nat → (j < 16)%nat →
  nth i upper_hex_chars "0"%char = nth j upper_hex_chars "0"%char → i = j.
Proof.
  intros Hi Hj.
  do 16 (destruct i as [|i]; [
    do 16 (destruct j as [|j]; [first [reflexivity | discriminate]|]); lia |]).
  lia.
Qed.

Lemma hex_fixed_inj k : ∀ n m,
  hex_fixed upper_hex_chars k n = hex_fixed upper_hex_chars k m →
  n mod 16 ^ N.of_nat k = m mod 16 ^ N.of_nat k.
Proof.
  induction k as [|k IH]; intros n m H.
  - simpl. rewrite !N.mod_1_r. reflexivity.
  - rewrite !hex_fixed_S in H. apply string_snoc_inj in H as [Hs Hc].
    apply IH in Hs. apply nth_upper_hex_inj in Hc.
    + rewrite Nat2N.inj_succ, N.pow_succ_r', !N.Div0.mod_mul_r. lia.
    + pose proof (N.mod_lt n 16). lia.
    + pose proof (N.mod_lt m 16). lia.
Qed.

Lemma proof_id_hex_fixed u :
  u < 2 ^ 128 →
  "0x" +:+ upper (slice_to 8 (uuid_hex u))
  = "0x" +:+ hex_fixed upper_hex_chars 8 (u / 2 ^ 96).
Proof.
  intros Hu. rewrite (uuid_hex_hex_fixed u Hu).
  change (hex_fixed lower_hex_chars 32 u)
    with (hex_fixed lower_hex_chars (8 + 24) u).
  rewrite (slice_to_hex_fixed lower_hex_chars 8 24 u), upper_hex_fixed.
  replace (16 ^ N.of_nat 24) with (2 ^ 96) by (vm_compute; reflexivity).
  reflexivity.
Qed.

End HexFacts.

(** X14. For a 128-bit identifier the [proof_id] is ["0x"] followed by
    the eight uppercase hexadecimal digits of the identifier's top 32
    bits: the other 96 bits never show. *)
Theorem proof_id_is_top_32_bits (w : World) (r : DisciplineResult) :
  (uuid4_int w < 2 ^ 128)%N →
  proof_id (generate_proof w r)
  = "0x" +:+ hex_fixed upper_hex_chars 8 (uuid4_int w / 2 ^ 96)%N.
Proof. intros Hu. apply proof_id_hex_fixed, Hu. Qed.

Lemma proof_id_is_top_32_bits_witness :
  let w := mkWorld 0x0a1b2c3d4e5f40718293a4b5c6d7e8f9 "2026-01-20T10:11:12" in
  (uuid4_int w < 2 ^ 128)%N
  ∧ proof_id (generate_proof w evaluate)
    = "0x" +:+ hex_fixed upper_hex_chars 8 0x0a1b2c3d.
Proof.
  cbv zeta. split; [vm_compute; reflexivity|].
  apply (proof_id_is_top_32_bits
           (mkWorld 0x0a1b2c3d4e5f40718293a4b5c6d7e8f9 "2026-01-20T10:11:12")).
  vm_compute; reflexivity.
Defined.

(** X15. Two calls of [generate_proof] give the same [proof_id] exactly
    when their 128-bit identifiers agree on the top 32 bits; identifiers
    that differ only below them collide. *)
Theorem proof_id_collides_iff (w1 w2 : World) (r1 r2 : DisciplineResult) :
  (uuid4_int w1 < 2 ^ 128)%N → (uuid4_int w2 < 2 ^ 128)%N →
  proof_id (generate_proof w1 r1) = proof_id (generate_proof w2 r2)
  ↔ (uuid4_int w1 / 2 ^ 96 = uuid4_int w2 / 2 ^ 96)%N.
Proof.
  intros H1 H2. unfold generate_proof; simpl.
  rewrite (proof_id_hex_fixed _ H1), (proof_id_hex_fixed _ H2). split.
  - intros H. apply (inj (String.append "0x")) in H.
    apply (hex_fixed_inj 8) in H.
    assert (B1 : (uuid4_int w1 / 2 ^ 96 < 16 ^ N.of_nat 8)%N).
    { apply N.Div0.div_lt_upper_bound. exact H1. }
    assert (B2 : (uuid4_int w2 / 2 ^ 96 < 16 ^ N.of_nat 8)%N).
    { apply N.Div0.div_lt_upper_bound. exact H2. }
    rewrite !N.mod_small in H by assumption. exact H.
  - intros ->. reflexivity.
Qed.

Lemma proof_id_collides_iff_witness :
  let w1 := mkWorld 0x0a1b2c3d4e5f40718293a4b5c6d7e8f9 "2026-01-20T10:11:12" in
  let w2 := mkWorld 0x0a1b2c3d000040008000000000000001 "2026-01-21T09:00:00" in
  (uuid4_int w1 < 2 ^ 128)%N ∧ (uuid4_int w2 < 2 ^ 128)%N
  ∧ uuid4_int w1 ≠ uuid4_int w2
  ∧ proof_id (generate_proof w1 evaluate) = proof_id (generate_proof w2 evaluate).
Proof.
  cbv zeta. split; [vm_compute; reflexivity|].
  split; [vm_compute; reflexivity|]. split; [discriminate|].
  apply (proof_id_collides_iff
           (mkWorld 0x0a1b2c3d4e5f40718293a4b5c6d7e8f9 "2026-01-20T10:11:12")
           (mkWorld 0x0a1b2c3d000040008000000000000001 "2026-01-21T09:00:00"));
    vm_compute; reflexivity.
Defined.
